(** * mrcfile: utility functions and validation of MRC2014 files

    A shallow embedding of [mrcfile/utils.py] and of the validation engine
    exercised by [tests/test_validation.py], with the properties of the
    data-shape resolver, the mode/dtype codec, the machine stamp and the
    validation report. *)

From Stdlib Require Import ZArith QArith Lia List Ascii String.
From stdpp Require Import gmap strings list fin_maps pretty.

Local Open Scope string_scope.
Local Open Scope list_scope.
Local Open Scope Z_scope.

(** ** Python results

    A call either returns a value or raises.  Only the exceptions that the
    embedded code can raise are listed; a [ValueError] carries the data its
    message is formatted from. *)

Record dtype := Dtype {
  kind : ascii;        (* numpy's one-character kind code: i, u, f, c, ... *)
  itemsize : N;        (* element size in bytes *)
  byteorder : ascii;   (* '=' native, '<', '>' or '|' (not applicable) *)
}.

Inductive value_error :=
  | CannotConvertDtype (d : dtype)           (* "dtype '{0}' cannot be converted to an MRC file mode" *)
  | UnrecognisedMode (mode : Z)              (* "Unrecognised mode '{0}'" *)
  | UnrecognisedByteOrder (byte_order : string). (* "Unrecognised byte order indicator '{0}'" *)

Inductive exn :=
  | ValueError (msg : value_error)
  | ZeroDivisionError.

Inductive result (A : Type) :=
  | Ok (a : A)
  | Raise (e : exn).
Arguments Ok {A} a.
Arguments Raise {A} e.

Definition bind {A B} (r : result A) (k : A -> result B) : result B :=
  match r with
  | Ok a => k a
  | Raise e => Raise e
  end.

Definition raises {A} (r : result A) : Prop := exists e, r = Raise e.

(** ** numpy element types *)

Definition np_int8 := Dtype "i"%char 1 "|"%char.
Definition np_int16 := Dtype "i"%char 2 "="%char.
Definition np_float16 := Dtype "f"%char 2 "="%char.
Definition np_float32 := Dtype "f"%char 4 "="%char.
Definition np_uint8 := Dtype "u"%char 1 "|"%char.
Definition np_uint16 := Dtype "u"%char 2 "="%char.
Definition np_complex64 := Dtype "c"%char 8 "="%char.

(** ** mode_from_dtype *)

(** [_dtype_to_mode = dict(f2=2, f4=2, i1=0, i2=1, u1=6, u2=6, c8=4)] *)
Definition _dtype_to_mode : gmap string Z :=
  <["f2" := 2]> (<["f4" := 2]> (<["i1" := 0]> (<["i2" := 1]>
  (<["u1" := 6]> (<["u2" := 6]> (<["c8" := 4]> ∅)))))).

(** [dtype.kind + str(dtype.itemsize)] *)
Definition kind_and_size (d : dtype) : string :=
  String (kind d) (pretty (itemsize d)).

Definition mode_from_dtype (d : dtype) : result Z :=
  match _dtype_to_mode !! kind_and_size d with
  | Some mode => Ok mode
  | None => Raise (ValueError (CannotConvertDtype d))
  end.

(** ** dtype_from_mode *)

(** [_mode_to_dtype = {0: np.int8, 1: np.int16, 2: np.float32,
                       4: np.complex64, 6: np.uint16}] *)
Definition _mode_to_dtype : gmap Z dtype :=
  <[0 := np_int8]> (<[1 := np_int16]> (<[2 := np_float32]>
  (<[4 := np_complex64]> (<[6 := np_uint16]> ∅)))).

(** The values [int()] converts: a Python or numpy integer, or a finite
    float, which is a rational number.  (numpy scalars and single-item
    arrays convert through the value they hold.) *)
Inductive number :=
  | Int (z : Z)
  | Float (q : Q).

(** [int(x)]: the identity on integers, truncation towards zero on floats. *)
Definition int (x : number) : Z :=
  match x with
  | Int z => z
  | Float q => Z.quot (Qnum q) (Z.pos (Qden q))
  end.

Definition dtype_from_mode (mode : number) : result dtype :=
  let mode := int mode in
  match _mode_to_dtype !! mode with
  | Some t => Ok t
  | None => Raise (ValueError (UnrecognisedMode mode))
  end.

(** ** machine_stamp_from_byte_order *)

(** [_byte_order_to_machine_stamp = {'<': bytearray((0x44, 0x44, 0, 0)),
                                     '>': bytearray((0x11, 0x11, 0, 0))}] *)
Definition _byte_order_to_machine_stamp : gmap string (list Z) :=
  <["<" := [0x44; 0x44; 0; 0]]> (<[">" := [0x11; 0x11; 0; 0]]> ∅).

(** [sys_byteorder] is [sys.byteorder] of the running interpreter, the only
    thing the function reads besides its argument. *)
Definition machine_stamp_from_byte_order (sys_byteorder : string)
    (byte_order : string) : result (list Z) :=
  let byte_order :=
    if String.eqb byte_order "="
    then (if String.eqb sys_byteorder "little" then "<" else ">")
    else byte_order in
  match _byte_order_to_machine_stamp !! byte_order with
  | Some stamp => Ok stamp
  | None => Raise (ValueError (UnrecognisedByteOrder byte_order))
  end.

(** ** spacegroup_is_volume_stack *)

Definition spacegroup_is_volume_stack (ispg : Z) : bool :=
  (401 <=? ispg) && (ispg <=? 630).

(** ** The header record

    The fields of the numpy header record that the embedded code reads.
    Integer fields are signed 32-bit, float fields are finite floats, held
    as the rationals they denote. *)

Record header := Header {
  nx : Z; ny : Z; nz : Z;
  mode : Z;
  mx : Z; my : Z; mz : Z;
  cella_x : Q; cella_y : Q; cella_z : Q;
  mapc : Z; mapr : Z; maps : Z;
  dmin : Q; dmax : Q; dmean : Q;
  ispg : Z;
  nsymbt : Z;
  exttyp : string;
  nversion : Z;
  map : string;
  machst : list Z;
  rms : Q;
  nlabl : Z;
  label : list string;
}.

Definition int32 (z : Z) : Prop := -2 ^ 31 <= z < 2 ^ 31.

(** ** Integer floor division

    [nz // mz] depends on what the header fields are.  On Python integers
    a zero divisor raises [ZeroDivisionError]; on the int32 values of a
    numpy record the quotient of a zero divisor is 0 (numpy reports it with
    a RuntimeWarning only) and the result wraps around to 32 bits. *)

Inductive arith := PyInt | NpInt32.

Definition wrap32 (z : Z) : Z := (z + 2 ^ 31) mod 2 ^ 32 - 2 ^ 31.

Definition floordiv (a : arith) (n d : Z) : result Z :=
  match a with
  | PyInt => if d =? 0 then Raise ZeroDivisionError else Ok (n / d)
  | NpInt32 => if d =? 0 then Ok 0 else Ok (wrap32 (n / d))
  end.

(** ** data_shape_from_header *)

Section Shape.

(** [IMAGE_STACK_SPACEGROUP] is imported from [mrcfile/constants.py]. *)
Variable IMAGE_STACK_SPACEGROUP : Z.

Definition data_shape_from_header (a : arith) (header : header) : result (list Z) :=
  let nx := nx header in
  let ny := ny header in
  let nz := nz header in
  let mz := mz header in
  let ispg := ispg header in
  if spacegroup_is_volume_stack ispg then
    bind (floordiv a nz mz) (fun q => Ok [q; mz; ny; nx])
  else if (ispg =? IMAGE_STACK_SPACEGROUP) && (nz =? 1) then
    Ok [ny; nx]
  else
    Ok [nz; ny; nx].

End Shape.

(** ** Tables and inputs the properties are stated with *)

(** The keys of [_dtype_to_mode], as (kind, itemsize) pairs. *)
Definition supported_kind_size : list (ascii * N) :=
  [("i"%char, 1%N); ("i"%char, 2%N); ("f"%char, 2%N); ("f"%char, 4%N);
   ("c"%char, 8%N); ("u"%char, 1%N); ("u"%char, 2%N)].

(** The keys of [_mode_to_dtype]. *)
Definition recognised_modes : list Z := [0; 1; 2; 4; 6].

(** The element types [mode_from_dtype] documents as convertible. *)
Definition supported_dtypes : list dtype :=
  [np_int8; np_int16; np_float16; np_float32; np_uint8; np_uint16; np_complex64].

(** [dtype_from_mode(mode_from_dtype(t))] *)
Definition round_trip (t : dtype) : result dtype :=
  bind (mode_from_dtype t) (fun mode => dtype_from_mode (Int mode)).

(** The two values of [_byte_order_to_machine_stamp]. *)
Definition little_endian_stamp : list Z := [0x44; 0x44; 0; 0].
Definition big_endian_stamp : list Z := [0x11; 0x11; 0; 0].

(** The fields the quotient is computed from fit the arithmetic. *)
Definition representable (a : arith) (z : Z) : Prop :=
  match a with
  | PyInt => True
  | NpInt32 => int32 z
  end.

(** The header of the specification's example: a stack of three volumes of
    two sections each. *)
Definition stack_header (ispg nz mz : Z) : header :=
  {| nx := 5; ny := 4; nz := nz; mode := 2; mx := 5; my := 4; mz := mz;
     cella_x := 0; cella_y := 0; cella_z := 0;
     mapc := 1; mapr := 2; maps := 3;
     dmin := 0; dmax := 0; dmean := 0;
     ispg := ispg; nsymbt := 0; exttyp := EmptyString; nversion := 20140;
     map := "MAP "; machst := little_endian_stamp; rms := 0;
     nlabl := 0; label := [] |}.

(** The call raises, and what it raises is not the division's own error. *)
Definition fails_without_dividing (r : result (list Z)) : Prop :=
  exists e, r = Raise e /\ e <> ZeroDivisionError.

(** The number of elements of a shape. *)
Definition product (shape : list Z) : Z := fold_right Z.mul 1 shape.

(** ** data_dtype_from_header *)

Section DataDtype.

(** numpy's [dtype.newbyteorder(new_order)]. *)
Variable newbyteorder : dtype -> ascii -> dtype.

(** [header.mode] is a numpy value: [mode header] is the number it holds and
    [mode_byteorder] is [mode.dtype.byteorder], the byte order the header
    was decoded with. *)
Definition data_dtype_from_header (mode_byteorder : ascii) (header : header)
    : result dtype :=
  let mode := mode header in
  bind (dtype_from_mode (Int mode))
       (fun t => Ok (newbyteorder t mode_byteorder)).

End DataDtype.

(** A header that declares the given mode. *)
Definition mode_header (mode : Z) : header :=
  {| nx := 5; ny := 4; nz := 6; mode := mode; mx := 5; my := 4; mz := 6;
     cella_x := 0; cella_y := 0; cella_z := 0;
     mapc := 1; mapr := 2; maps := 3;
     dmin := 0; dmax := 0; dmean := 0;
     ispg := 1; nsymbt := 0; exttyp := EmptyString; nversion := 20140;
     map := "MAP "; machst := little_endian_stamp; rms := 0;
     nlabl := 0; label := [] |}.

(** The rows of [_dtype_to_mode]: kind, item size and mode. *)
Definition mode_table : list (ascii * N * Z) :=
  [("f"%char, 2%N, 2); ("f"%char, 4%N, 2); ("i"%char, 1%N, 0);
   ("i"%char, 2%N, 1); ("u"%char, 1%N, 6); ("u"%char, 2%N, 6);
   ("c"%char, 8%N, 4)].

(** The byte order an indicator stands for once '=' is replaced with the
    system-native order, as line 173 of [utils.py] does. *)
Definition resolved_byte_order (sys_byteorder byte_order : string) : string :=
  if String.eqb byte_order "="
  then (if String.eqb sys_byteorder "little" then "<" else ">")
  else byte_order.

(** * The validation engine

    [mrcfile.validate] is defined in [mrcfile/__init__.py], which is not
    among the sources; [tests/test_validation.py] calls it.  The engine below
    follows sections 4.5, 6 and 7 of the specification, and the test suite
    wherever a test fixes what the specification leaves open. *)

Module Validation.

(** Modelled from the spec: the literals of the MRC2014 format that the
    missing validation function compares against (specification, section 9);
    they live in [mrcfile/constants.py]. *)
Record constants := Constants {
  IMAGE_STACK_SPACEGROUP : Z;
  MAP_ID : string;
  EXTENDED_HEADER_TYPES : list string;
}.

(** The literals of the MRC2014 format, for the files of the test suite. *)
Definition mrc2014 : constants :=
  {| IMAGE_STACK_SPACEGROUP := 0;
     MAP_ID := "MAP ";
     EXTENDED_HEADER_TYPES := ["CCP4"; "MRCO"; "SERI"; "AGAR"; "FEI1"] |}.

(** The format version every test message names:
    "File does not declare MRC format version 20140". *)
Definition MRC_FORMAT_VERSION : Z := 20140.

(** Modelled from the spec: what the statistics engine (section 4.4), which
    is missing too, computes over the data array as it was read: minimum,
    maximum, mean and RMS deviation, as the finite floats they are. *)
Record statistics := Statistics {
  data_min : Q;
  data_max : Q;
  data_mean : Q;
  data_rms : Q;
}.

(** Modelled from the spec: an opened file as the missing validation
    function sees it (section 4.5): the decoded header, the number of bytes
    that follow the header and the extended header, and the statistics of
    the data array. *)
Record mrc_file := MrcFile {
  hdr : header;
  data_nbytes : Z;
  data_stats : statistics;
}.

(** Modelled from the spec: the diagnostic lines of the missing validation
    function, one kind per rule of section 4.5, with the values the message
    is formatted from.  The wording quoted is the one the tests look for. *)
Inductive diagnostic :=
  | MapIdIncorrect (found : string)              (* "Map ID string ..." *)
  | MachineStampInvalid (found : list Z)         (* "... machine stamp ..." *)
  | ModeInvalid (found : Z)                      (* "... mode ..." *)
  | DataBlockTooSmall (expected actual : Z)      (* "... data block ..." *)
  | DataBlockTooLarge (expected actual : Z)      (* "... larger than expected" *)
  | FieldNegative (field : string) (found : Z)   (* "Header field 'mx' is negative" *)
  | CellDimensionNegative (axis : string) (found : Q)
                                                 (* "Cell dimension 'x' is negative" *)
  | AxisMappingInvalid (s c r : Z)               (* "Invalid axis mapping: found [...]" *)
  | VolumeStackDimensions (nz mz : Z)            (* "... nz should be divisible by mz. Found nz = 6, mz = 5" *)
  | LabelsInterleaved                            (* "... empty labels appear between text-containing labels" *)
  | LabelsCount (nlabl count : Z)                (* "... nlabl is 3 but 2 labels contain text" *)
  | FormatVersion (found : Z)                    (* "File does not declare MRC format version 20140: nversion = 0" *)
  | ExtendedHeaderType (found : string)          (* "Extended header type is undefined or unrecognised: exttyp = ''" *)
  | StatisticMinimum (computed declared : Q)     (* "... minimum is {0} but the value in the header is {1}" *)
  | StatisticMaximum (computed declared : Q)
  | StatisticMean (computed declared : Q)
  | StatisticRms (computed declared : Q).

(** Comparisons of floats: [x < y], [x != y] and [min(x, y)]. *)
Definition Qltb (x y : Q) : bool := negb (Qle_bool y x).
Definition Qneqb (x y : Q) : bool := negb (Qeq_bool x y).
Definition Qmin (x y : Q) : Q := if Qle_bool x y then x else y.

(** ** The run *)

(** Modelled from the spec: the state of a run of the missing validation
    function (section 6): the result so far, the sink the lines are printed
    to, and the warnings raised. *)
Record run (S : Type) := Run {
  valid : bool;
  print_file : S;
  warned : list diagnostic;
}.
Arguments Run {S} _ _ _.
Arguments valid {S} _.
Arguments print_file {S} _.
Arguments warned {S} _.

Section Rules.

Variable c : constants.

(** ** The data block *)

(** Modelled from the spec: rule 3 of section 4.5 of the missing validation
    function, the mode is one [dtype_from_mode] recognises. *)
Definition mode_recognised (f : mrc_file) : bool :=
  match dtype_from_mode (Int (mode (hdr f))) with
  | Ok _ => true
  | Raise _ => false
  end.

(** Modelled from the spec: the bytes the header declares for the data block
    (section 6 of the specification, for the missing validation function):
    element width times the product of the shape, both from the functions of
    [utils.py] applied to the numpy header. *)
Definition expected_nbytes (f : mrc_file) : option Z :=
  match dtype_from_mode (Int (mode (hdr f))),
        data_shape_from_header (IMAGE_STACK_SPACEGROUP c) NpInt32 (hdr f) with
  | Ok t, Ok shape => Some (Z.of_N (itemsize t) * product shape)
  | _, _ => None
  end.

(** Modelled from the spec: rule 4 of section 4.5 of the missing validation
    function, the file holds fewer bytes than the header declares, or more. *)
Definition too_small (f : mrc_file) : bool :=
  match expected_nbytes f with
  | Some n => data_nbytes f <? n
  | None => false
  end.

Definition too_large (f : mrc_file) : bool :=
  match expected_nbytes f with
  | Some n => n <? data_nbytes f
  | None => false
  end.

(** Modelled from the spec: the data array exists for the missing validation
    function when its mode is recognised and the file holds all the bytes
    the header declares (test_invalid_mode and test_file_too_small print no
    line about statistics). *)
Definition data_read (f : mrc_file) : bool :=
  match expected_nbytes f with
  | Some n => n <=? data_nbytes f
  | None => false
  end.

(** The declared size, as the lines about the data block report it. *)
Definition expected_or_zero (f : mrc_file) : Z :=
  match expected_nbytes f with
  | Some n => n
  | None => 0
  end.

(** ** Header conditions *)

(** Modelled from the spec: rule 2 of section 4.5 of the missing validation
    function, the machine stamp is one of the two fixed constants. *)
Definition machine_stamp_recognised (stamp : list Z) : bool :=
  bool_decide (stamp = little_endian_stamp) ||
  bool_decide (stamp = big_endian_stamp).

(** Modelled from the spec: rule 9 of section 4.5 of the missing validation
    function, [mapc, mapr, maps] is a permutation of 1, 2, 3. *)
Definition axis_mapping_valid (h : header) : bool :=
  bool_decide (Permutation [mapc h; mapr h; maps h] [1; 2; 3]).

(** Modelled from the spec: [nz % mz] of rule 10 of section 4.5 of the
    missing validation function; numpy's remainder is 0 for a zero divisor. *)
Definition remainder (n d : Z) : Z := if d =? 0 then 0 else n mod d.

(** Modelled from the spec: rule 11 of section 4.5 of the missing validation
    function: a label is counted when it is not empty, and labels are
    interleaved when one with text follows an empty one. *)
Definition has_text (s : string) : bool := negb (String.eqb s EmptyString).

Definition text_label_count (h : header) : Z :=
  Z.of_nat (length (filter (fun s => has_text s = true) (label h))).

(** A label with text after an empty one. *)
Fixpoint interleaved (seen_empty : bool) (labels : list string) : bool :=
  match labels with
  | [] => false
  | s :: rest =>
      if has_text s then seen_empty || interleaved seen_empty rest
      else interleaved true rest
  end.

(** ** Undetermined statistics *)

(** Modelled from the spec: the validation function of [mrcfile/__init__.py]
    is not among the sources, and the spec leaves the sentinel threshold of
    an undetermined statistic open (section 9).  The convention taken here
    is the one the test suite fixes: minimum and maximum are undetermined
    when dmax < dmin (test_min_and_max_undetermined, against
    test_incorrect_dmin and test_incorrect_dmax), the mean when it lies
    below both dmin and dmax (test_mean_undetermined,
    test_incorrect_dmean_with_undetermined_dmin_and_dmax), the RMS deviation
    when it is negative (test_rms_undetermined).  No test reaches
    dmin = dmax or a dmean equal to the smaller of the two; the statistic is
    taken as determined there. *)
Definition min_max_determined (h : header) : bool := Qle_bool (dmin h) (dmax h).
Definition mean_determined (h : header) : bool :=
  Qle_bool (Qmin (dmin h) (dmax h)) (dmean h).
Definition rms_determined (h : header) : bool := Qle_bool 0 (rms h).

(** ** The rules *)

(** Modelled from the spec: a rule of the missing validation function: when
    it is violated, the line it prints, and whether it also raises a
    RuntimeWarning carrying the same message (section 7). *)
Record rule := Rule {
  violated : mrc_file -> bool;
  line : mrc_file -> diagnostic;
  signalled : bool;
}.

(** Modelled from the spec: rules 5 to 8 of section 4.5 of the missing
    validation function, a field that must not be negative. *)
Definition negative_field (name : string) (get : header -> Z) (signal : bool) : rule :=
  {| violated f := get (hdr f) <? 0;
     line f := FieldNegative name (get (hdr f));
     signalled := signal |}.

Definition negative_cell (axis : string) (get : header -> Q) : rule :=
  {| violated f := Qltb (get (hdr f)) 0;
     line f := CellDimensionNegative axis (get (hdr f));
     signalled := false |}.

(** Modelled from the spec: rules 14 and 15 of section 4.5 of the missing
    validation function: a statistic that is determined must equal the
    computed one; nothing is compared when the data array was not read. *)
Definition statistic (determined : header -> bool) (declared : header -> Q)
    (computed : statistics -> Q) (msg : Q -> Q -> diagnostic) : rule :=
  {| violated f := data_read f && determined (hdr f) &&
                   Qneqb (declared (hdr f)) (computed (data_stats f));
     line f := msg (computed (data_stats f)) (declared (hdr f));
     signalled := false |}.

(** Modelled from the spec: the ordered battery of checks of section 4.5 of
    the specification, the validation function itself not being among the
    sources.  Each check prints exactly one line when violated.  The magic
    string, the machine stamp, the mode and the format version are the
    dual-signalled conditions of section 7; the tests add the size of the
    data block to them (test_file_too_small, test_file_too_large) and show
    the two label conditions as lines of their own (test_nlabl_too_large,
    test_empty_labels_in_list). *)
Definition rules : list rule :=
  [ {| violated f := negb (String.eqb (map (hdr f)) (MAP_ID c));
       line f := MapIdIncorrect (map (hdr f));
       signalled := true |};
    {| violated f := negb (machine_stamp_recognised (machst (hdr f)));
       line f := MachineStampInvalid (machst (hdr f));
       signalled := true |};
    {| violated f := negb (mode_recognised f);
       line f := ModeInvalid (mode (hdr f));
       signalled := true |};
    {| violated := too_small;
       line f := DataBlockTooSmall (expected_or_zero f) (data_nbytes f);
       signalled := true |};
    {| violated := too_large;
       line f := DataBlockTooLarge (expected_or_zero f) (data_nbytes f);
       signalled := true |};
    negative_field "mx" mx false;
    negative_field "my" my false;
    negative_field "mz" mz false;
    negative_field "ispg" ispg false;
    negative_field "nlabl" nlabl false;
    negative_cell "x" cella_x;
    negative_cell "y" cella_y;
    negative_cell "z" cella_z;
    {| violated f := negb (axis_mapping_valid (hdr f));
       line f := AxisMappingInvalid (maps (hdr f)) (mapc (hdr f)) (mapr (hdr f));
       signalled := false |};
    {| violated f := spacegroup_is_volume_stack (ispg (hdr f)) &&
                     negb (remainder (nz (hdr f)) (mz (hdr f)) =? 0);
       line f := VolumeStackDimensions (nz (hdr f)) (mz (hdr f));
       signalled := false |};
    {| violated f := negb (nlabl (hdr f) =? text_label_count (hdr f));
       line f := LabelsCount (nlabl (hdr f)) (text_label_count (hdr f));
       signalled := false |};
    {| violated f := interleaved false (label (hdr f));
       line f := LabelsInterleaved;
       signalled := false |};
    {| violated f := negb (nversion (hdr f) =? MRC_FORMAT_VERSION);
       line f := FormatVersion (nversion (hdr f));
       signalled := true |};
    {| violated f := (0 <? nsymbt (hdr f)) &&
                     negb (bool_decide (exttyp (hdr f) ∈ EXTENDED_HEADER_TYPES c));
       line f := ExtendedHeaderType (exttyp (hdr f));
       signalled := false |};
    statistic min_max_determined dmin data_min StatisticMinimum;
    statistic min_max_determined dmax data_max StatisticMaximum;
    statistic mean_determined dmean data_mean StatisticMean;
    statistic rms_determined rms data_rms StatisticRms ].

Section Sink.

Context {S : Type} (print : diagnostic -> S -> S).

(** Modelled from the spec: what the missing validation function does on a
    violated rule: print the line, raise the warning if the rule has one,
    and record that the file is invalid. *)
Definition log (d : diagnostic) (signal : bool) (st : run S) : run S :=
  {| valid := false;
     print_file := print d (print_file st);
     warned := if signal then warned st ++ [d] else warned st |}.

Definition check (f : mrc_file) (st : run S) (r : rule) : run S :=
  if violated r f then log (line r f) (signalled r) st else st.

(** Modelled from the spec: the validation entry point (section 6): every
    rule is checked in order, none stops the run, and the result is the
    boolean together with what was printed and warned. *)
Definition validate (f : mrc_file) (sink : S) : run S :=
  fold_left (check f) rules {| valid := true; print_file := sink; warned := [] |}.

End Sink.

End Rules.

(** The sink of the tests: an [io.StringIO] that starts empty and collects
    the printed lines. *)
Definition write (d : diagnostic) (stream : list diagnostic) : list diagnostic :=
  stream ++ [d].

(** A sink that discards what is printed to it. *)
Definition discard (d : diagnostic) (stream : unit) : unit := tt.

(** ** The files of the test suite *)

(** The header [mrcfile.new] and [set_data] leave for a float32 array of
    [nz] sections of [ny] rows of [nx] columns with the given statistics.
    A new file carries one label with text: after one more label is set,
    test_nlabl_too_large counts two. *)
Definition new_header (nx ny nz : Z) (st : statistics) : header :=
  {| nx := nx; ny := ny; nz := nz; mode := 2; mx := nx; my := ny; mz := nz;
     cella_x := inject_Z nx; cella_y := inject_Z ny; cella_z := inject_Z nz;
     mapc := 1; mapr := 2; maps := 3;
     dmin := data_min st; dmax := data_max st; dmean := data_mean st;
     ispg := 1; nsymbt := 0; exttyp := EmptyString; nversion := 20140;
     map := "MAP "; machst := little_endian_stamp; rms := data_rms st;
     nlabl := 1;
     label := "Created by mrcfile.py" :: repeat EmptyString 9 |}.

(** [mrc.header.dmin = ...] and its like. *)
Definition with_statistics (h : header) (dmin dmax dmean rms : Q) : header :=
  {| nx := nx h; ny := ny h; nz := nz h; mode := mode h;
     mx := mx h; my := my h; mz := mz h;
     cella_x := cella_x h; cella_y := cella_y h; cella_z := cella_z h;
     mapc := mapc h; mapr := mapr h; maps := maps h;
     dmin := dmin; dmax := dmax; dmean := dmean;
     ispg := ispg h; nsymbt := nsymbt h; exttyp := exttyp h;
     nversion := nversion h; map := map h; machst := machst h; rms := rms;
     nlabl := nlabl h; label := label h |}.

(** [mrc.header.map = ...], [machst], [mode], [nversion]. *)
Definition with_identity (h : header) (map : string) (machst : list Z)
    (mode nversion : Z) : header :=
  {| nx := nx h; ny := ny h; nz := nz h; mode := mode;
     mx := mx h; my := my h; mz := mz h;
     cella_x := cella_x h; cella_y := cella_y h; cella_z := cella_z h;
     mapc := mapc h; mapr := mapr h; maps := maps h;
     dmin := dmin h; dmax := dmax h; dmean := dmean h;
     ispg := ispg h; nsymbt := nsymbt h; exttyp := exttyp h;
     nversion := nversion; map := map; machst := machst; rms := rms h;
     nlabl := nlabl h; label := label h |}.

(** [mrc.header.nz = ...] *)
Definition with_sections (h : header) (nz : Z) : header :=
  {| nx := nx h; ny := ny h; nz := nz; mode := mode h;
     mx := mx h; my := my h; mz := mz h;
     cella_x := cella_x h; cella_y := cella_y h; cella_z := cella_z h;
     mapc := mapc h; mapr := mapr h; maps := maps h;
     dmin := dmin h; dmax := dmax h; dmean := dmean h;
     ispg := ispg h; nsymbt := nsymbt h; exttyp := exttyp h;
     nversion := nversion h; map := map h; machst := machst h; rms := rms h;
     nlabl := nlabl h; label := label h |}.

(** [np.arange(-10, 20, dtype=np.float32).reshape(2, 3, 5)]: minimum -10,
    maximum 19, mean 4.5, and the float of its RMS deviation. *)
Definition arange_statistics : statistics :=
  {| data_min := -10; data_max := 19; data_mean := 45 # 10;
     data_rms := 8655442 # 1000000 |}.

Definition arange_header : header := new_header 5 3 2 arange_statistics.

Definition arange_file (h : header) : mrc_file :=
  {| hdr := h; data_nbytes := 120; data_stats := arange_statistics |}.

(** test_good_file: [np.arange(36, dtype=np.float32).reshape(3, 3, 4)]. *)
Definition good_statistics : statistics :=
  {| data_min := 0; data_max := 35; data_mean := 175 # 10;
     data_rms := 10388294 # 1000000 |}.

Definition good_file : mrc_file :=
  {| hdr := new_header 4 3 3 good_statistics;
     data_nbytes := 144; data_stats := good_statistics |}.

(** test_file_too_small: twelve floats on file under a header that declares
    two sections of twelve. *)
Definition too_small_file : mrc_file :=
  let st := {| data_min := 0; data_max := 11; data_mean := 55 # 10;
               data_rms := 3452053 # 1000000 |} in
  {| hdr := with_sections (new_header 4 3 1 st) 2;
     data_nbytes := 48; data_stats := st |}.

(** test_file_too_large: thirty-six floats on file under a header that
    declares two sections of twelve; the array read is the first two
    sections. *)
Definition too_large_file : mrc_file :=
  {| hdr := with_sections (new_header 4 3 3 good_statistics) 2;
     data_nbytes := 144;
     data_stats := {| data_min := 0; data_max := 23; data_mean := 115 # 10;
                      data_rms := 6922187 # 1000000 |} |}.

(** test_many_problems_simultaneously: [np.arange(-10, 20)] in three
    sections of two rows of five, the same array as extended header, and
    fourteen header fields overwritten. *)
Definition many_problems_file : mrc_file :=
  {| hdr :=
       {| nx := 5; ny := 2; nz := 2; mode := 2;
          mx := 5; my := -1000; mz := -5;
          cella_x := 5; cella_y := - (121 # 10); cella_z := 3;
          mapc := 5; mapr := 2; maps := 3;
          dmin := 10; dmax := 11; dmean := 19;
          ispg := -20; nsymbt := 120; exttyp := "fake"; nversion := 0;
          map := "MAP "; machst := little_endian_stamp; rms := 0;
          nlabl := 4;
          label := "Created by mrcfile.py" :: repeat EmptyString 8 ++
                    ["test label"] |};
     data_nbytes := 120;
     data_stats := {| data_min := -10; data_max := 9; data_mean := - (1 # 2);
                      data_rms := 5766281 # 1000000 |} |}.

(** [validate(name, print_file=io.StringIO())] *)
Definition validate_test (f : mrc_file) : run (list diagnostic) :=
  validate mrc2014 write f [].

(** ** Reading a report *)

(** The lines a rule contributes, and the warnings. *)
Definition printed_by (f : mrc_file) (r : rule) : list diagnostic :=
  if violated r f then [line r f] else [].

Definition warned_by (f : mrc_file) (r : rule) : list diagnostic :=
  if violated r f && signalled r then [line r f] else [].

(** The lines (or, with [signal_only], the warnings) of a rule that [q]
    selects. *)
Definition selected (q : diagnostic -> bool) (signal_only : bool)
    (f : mrc_file) (r : rule) : list diagnostic :=
  if violated r f && (implb signal_only (signalled r) && q (line r f))
  then [line r f] else [].

(** The dual-signalled conditions. *)
Inductive condition := MapId | MachineStamp | ModeRecognition | Version.

(** The line is about the condition. *)
Definition about (k : condition) (d : diagnostic) : bool :=
  match k, d with
  | MapId, MapIdIncorrect _ => true
  | MachineStamp, MachineStampInvalid _ => true
  | ModeRecognition, ModeInvalid _ => true
  | Version, FormatVersion _ => true
  | _, _ => false
  end.

(** The condition holds of the file. *)
Definition holds (c : constants) (k : condition) (f : mrc_file) : bool :=
  match k with
  | MapId => String.eqb (map (hdr f)) (MAP_ID c)
  | MachineStamp => machine_stamp_recognised (machst (hdr f))
  | ModeRecognition => mode_recognised f
  | Version => nversion (hdr f) =? MRC_FORMAT_VERSION
  end.

(** The line, and the warning, of a violated condition. *)
Definition message (k : condition) (f : mrc_file) : diagnostic :=
  match k with
  | MapId => MapIdIncorrect (map (hdr f))
  | MachineStamp => MachineStampInvalid (machst (hdr f))
  | ModeRecognition => ModeInvalid (mode (hdr f))
  | Version => FormatVersion (nversion (hdr f))
  end.

(** The lines about the statistics. *)
Definition is_minimum (d : diagnostic) : bool :=
  match d with StatisticMinimum _ _ => true | _ => false end.
Definition is_maximum (d : diagnostic) : bool :=
  match d with StatisticMaximum _ _ => true | _ => false end.
Definition is_mean (d : diagnostic) : bool :=
  match d with StatisticMean _ _ => true | _ => false end.

(** No line about the minimum is printed. *)
Definition minimum_exempt (f : mrc_file) : Prop :=
  List.filter is_minimum (print_file (validate_test f)) = [].

(** The file of test_incorrect_dmin: the data of [arange_statistics] under
    a header whose dmin was set to -11. *)
Definition incorrect_dmin_file : mrc_file :=
  arange_file (with_statistics arange_header (-11) 19 (45 # 10) (8655442 # 1000000)).

End Validation.

(** * Properties of the mode codec *)

Lemma dtype_to_mode_lookup (key : string) :
  _dtype_to_mode !! key =
    if decide ("f2" = key) then Some 2 else
    if decide ("f4" = key) then Some 2 else
    if decide ("i1" = key) then Some 0 else
    if decide ("i2" = key) then Some 1 else
    if decide ("u1" = key) then Some 6 else
    if decide ("u2" = key) then Some 6 else
    if decide ("c8" = key) then Some 4 else None.
Proof.
  unfold _dtype_to_mode.
  rewrite !lookup_insert, lookup_empty. reflexivity.
Qed.

Lemma kind_and_size_eq (k c : ascii) (n m : N) (b : ascii) :
  String c (pretty m) = kind_and_size (Dtype k n b) <-> k = c /\ n = m.
Proof.
  unfold kind_and_size; simpl. split.
  - intros H. injection H as Hk Hn. split; [congruence |].
    symmetry. exact (pretty_N_inj _ _ Hn).
  - intros [-> ->]. reflexivity.
Qed.

Ltac key_cases :=
  repeat match goal with
  | |- context [decide (?s = kind_and_size ?d)] =>
      destruct (decide (s = kind_and_size d)) as [?Hkey | ?Hkey]
  end.

(** C6: [mode_from_dtype] maps signed 8-bit to 0, signed 16-bit to 1, 16- and
    32-bit floats to 2, 64-bit complex to 4 and unsigned 8- and 16-bit to 6,
    whatever the byte order, and raises the ValueError naming the dtype for
    every other (kind, itemsize) pair. *)
Theorem mode_from_dtype_table (k : ascii) (n : N) (b : ascii) :
  mode_from_dtype (Dtype "i" 1 b) = Ok 0 /\
  mode_from_dtype (Dtype "i" 2 b) = Ok 1 /\
  mode_from_dtype (Dtype "f" 2 b) = Ok 2 /\
  mode_from_dtype (Dtype "f" 4 b) = Ok 2 /\
  mode_from_dtype (Dtype "c" 8 b) = Ok 4 /\
  mode_from_dtype (Dtype "u" 1 b) = Ok 6 /\
  mode_from_dtype (Dtype "u" 2 b) = Ok 6 /\
  (~ In (k, n) supported_kind_size ->
   mode_from_dtype (Dtype k n b) = Raise (ValueError (CannotConvertDtype (Dtype k n b)))).
Proof.
  repeat split; try reflexivity.
  intros Hnot. unfold mode_from_dtype. rewrite dtype_to_mode_lookup.
  key_cases; try reflexivity; exfalso; apply Hnot;
    match goal with
    | H : _ = kind_and_size _ |- _ =>
        first [ apply (kind_and_size_eq k "f" n 2 b) in H
              | apply (kind_and_size_eq k "f" n 4 b) in H
              | apply (kind_and_size_eq k "i" n 1 b) in H
              | apply (kind_and_size_eq k "i" n 2 b) in H
              | apply (kind_and_size_eq k "u" n 1 b) in H
              | apply (kind_and_size_eq k "u" n 2 b) in H
              | apply (kind_and_size_eq k "c" n 8 b) in H ];
        destruct H as [-> ->]
    end; simpl; tauto.
Qed.

Lemma mode_from_dtype_table_witness :
  ~ In ("f"%char, 8%N) supported_kind_size /\
  mode_from_dtype (Dtype "f" 8 "=") =
    Raise (ValueError (CannotConvertDtype (Dtype "f" 8 "="))).
Proof.
  assert (H : ~ In ("f"%char, 8%N) supported_kind_size).
  { simpl. intros H. repeat destruct H as [H | H]; try discriminate H; exact H. }
  split; [exact H |].
  exact (proj2 (proj2 (proj2 (proj2 (proj2 (proj2 (proj2
           (mode_from_dtype_table "f" 8 "=")))))))  H).
Defined.

Lemma mode_to_dtype_lookup (m : Z) :
  _mode_to_dtype !! m =
    if decide (0 = m) then Some np_int8 else
    if decide (1 = m) then Some np_int16 else
    if decide (2 = m) then Some np_float32 else
    if decide (4 = m) then Some np_complex64 else
    if decide (6 = m) then Some np_uint16 else None.
Proof.
  unfold _mode_to_dtype.
  rewrite !lookup_insert, lookup_empty. reflexivity.
Qed.

Lemma dtype_from_mode_Some (x : number) (t : dtype) :
  dtype_from_mode x = Ok t -> In (int x) recognised_modes.
Proof.
  unfold dtype_from_mode. rewrite mode_to_dtype_lookup.
  unfold recognised_modes, In.
  repeat case_decide; try discriminate; intros _; intuition congruence.
Qed.

(** C7: [dtype_from_mode] returns int8, int16, float32, complex64 and uint16
    for modes 0, 1, 2, 4 and 6, and succeeds for no other mode: mode 3 and
    every other value raise the ValueError naming the mode.  The argument
    goes through [int()], so any number that converts to an integer is
    accepted and treated as that integer. *)
Theorem dtype_from_mode_table (x : number) :
  dtype_from_mode (Int 0) = Ok np_int8 /\
  dtype_from_mode (Int 1) = Ok np_int16 /\
  dtype_from_mode (Int 2) = Ok np_float32 /\
  dtype_from_mode (Int 4) = Ok np_complex64 /\
  dtype_from_mode (Int 6) = Ok np_uint16 /\
  dtype_from_mode (Int 3) = Raise (ValueError (UnrecognisedMode 3)) /\
  ((exists t, dtype_from_mode x = Ok t) <-> In (int x) recognised_modes) /\
  (~ In (int x) recognised_modes ->
   dtype_from_mode x = Raise (ValueError (UnrecognisedMode (int x)))) /\
  dtype_from_mode x = dtype_from_mode (Int (int x)).
Proof.
  repeat split; try reflexivity.
  - intros [t Ht]. exact (dtype_from_mode_Some x t Ht).
  - unfold dtype_from_mode, recognised_modes, In.
    rewrite mode_to_dtype_lookup.
    intros H. repeat case_decide; eauto. exfalso. intuition congruence.
  - unfold dtype_from_mode, recognised_modes, In.
    rewrite mode_to_dtype_lookup.
    intros H. repeat case_decide; try reflexivity; exfalso; intuition congruence.
Qed.

Lemma dtype_from_mode_table_witness :
  ~ In (int (Float (-27 # 10))) recognised_modes /\
  dtype_from_mode (Float (-27 # 10)) = Raise (ValueError (UnrecognisedMode (-2))).
Proof.
  assert (H : ~ In (int (Float (-27 # 10))) recognised_modes).
  { vm_compute. intuition discriminate. }
  split; [exact H |].
  exact (proj1 (proj2 (proj2 (proj2 (proj2 (proj2 (proj2 (proj2
           (dtype_from_mode_table (Float (-27 # 10)))))))))) H).
Defined.

(** C2: for each of the seven supported element types the round trip through
    the mode number succeeds with a dtype of the same kind that is at least
    as wide: it is the identity on int8, int16, float32, uint16 and
    complex64, and widens float16 to float32 and uint8 to uint16. *)
Theorem round_trip_widens (t : dtype) :
  In t supported_dtypes ->
  exists t', round_trip t = Ok t' /\
    kind t' = kind t /\ (itemsize t <= itemsize t')%N /\
    (In t [np_int8; np_int16; np_float32; np_uint16; np_complex64] -> t' = t) /\
    (t = np_float16 -> t' = np_float32) /\
    (t = np_uint8 -> t' = np_uint16).
Proof.
  simpl. intros H.
  repeat destruct H as [<- | H]; try contradiction;
    (eexists; split; [vm_compute; reflexivity |]);
    (split; [reflexivity |]); (split; [vm_compute; discriminate |]);
    repeat split; intros H';
    repeat (destruct H' as [H' | H']); try discriminate H';
    try contradiction; reflexivity.
Qed.

Lemma round_trip_widens_witness :
  In np_uint8 supported_dtypes /\
  exists t', round_trip np_uint8 = Ok t' /\
    kind t' = kind np_uint8 /\ (itemsize np_uint8 <= itemsize t')%N /\
    (In np_uint8 [np_int8; np_int16; np_float32; np_uint16; np_complex64] -> t' = np_uint8) /\
    (np_uint8 = np_float16 -> t' = np_float32) /\
    (np_uint8 = np_uint8 -> t' = np_uint16).
Proof.
  assert (H : In np_uint8 supported_dtypes) by (simpl; tauto).
  split; [exact H | exact (round_trip_widens np_uint8 H)].
Defined.

(** * The machine stamp *)

(** C8: the stamp is a function of the byte-order indicator and of the
    interpreter's native order alone: '<' gives (0x44, 0x44, 0, 0), '>' gives
    (0x11, 0x11, 0, 0), '=' gives the one of the two that the native order
    selects, and every other indicator raises the ValueError naming it. *)
Theorem machine_stamp_from_byte_order_cases (sys_byteorder byte_order : string) :
  machine_stamp_from_byte_order sys_byteorder "<" = Ok little_endian_stamp /\
  machine_stamp_from_byte_order sys_byteorder ">" = Ok big_endian_stamp /\
  machine_stamp_from_byte_order sys_byteorder "=" =
    Ok (if String.eqb sys_byteorder "little"
        then little_endian_stamp else big_endian_stamp) /\
  (machine_stamp_from_byte_order sys_byteorder "=" = Ok little_endian_stamp \/
   machine_stamp_from_byte_order sys_byteorder "=" = Ok big_endian_stamp) /\
  (~ In byte_order ["<"; ">"; "="] ->
   machine_stamp_from_byte_order sys_byteorder byte_order =
     Raise (ValueError (UnrecognisedByteOrder byte_order))).
Proof.
  assert (Heq : machine_stamp_from_byte_order sys_byteorder "=" =
                Ok (if String.eqb sys_byteorder "little"
                    then little_endian_stamp else big_endian_stamp)).
  { unfold machine_stamp_from_byte_order. simpl.
    destruct (String.eqb sys_byteorder "little"); reflexivity. }
  repeat split; try reflexivity; try exact Heq.
  - rewrite Heq. destruct (String.eqb sys_byteorder "little"); [left | right]; reflexivity.
  - intros Hnot. unfold machine_stamp_from_byte_order.
    assert (Hne : String.eqb byte_order "=" = false).
    { apply String.eqb_neq. intros ->. apply Hnot. simpl. tauto. }
    rewrite Hne. unfold _byte_order_to_machine_stamp.
    rewrite !lookup_insert, lookup_empty.
    repeat case_decide; try reflexivity; subst; exfalso; apply Hnot; simpl; tauto.
Qed.

Lemma machine_stamp_from_byte_order_cases_witness :
  ~ In "|" ["<"; ">"; "="] /\
  machine_stamp_from_byte_order "little" "|" =
    Raise (ValueError (UnrecognisedByteOrder "|")).
Proof.
  assert (H : ~ In "|" ["<"; ">"; "="]).
  { simpl. intros H. repeat destruct H as [H | H]; try discriminate H; exact H. }
  split; [exact H |].
  exact (proj2 (proj2 (proj2 (proj2
           (machine_stamp_from_byte_order_cases "little" "|")))) H).
Defined.

(** * The data shape *)

Lemma spacegroup_is_volume_stack_spec (ispg : Z) :
  spacegroup_is_volume_stack ispg = true <-> 401 <= ispg <= 630.
Proof. unfold spacegroup_is_volume_stack. lia. Qed.

Lemma spacegroup_is_volume_stack_false (ispg : Z) :
  spacegroup_is_volume_stack ispg = false <-> ~ (401 <= ispg <= 630).
Proof. unfold spacegroup_is_volume_stack. lia. Qed.

Lemma wrap32_id (z : Z) : int32 z -> wrap32 z = z.
Proof.
  unfold int32, wrap32. intros H.
  rewrite Z.mod_small by lia. lia.
Qed.

(** Away from a zero divisor and from the one overflowing quotient
    (-2^31 // -1), both arithmetics compute the mathematical floor. *)
Lemma floordiv_exact (a : arith) (n d : Z) :
  d <> 0 -> representable a n -> ~ (n = - 2 ^ 31 /\ d = -1) ->
  floordiv a n d = Ok (n / d).
Proof.
  intros Hd Hn Hov. unfold floordiv.
  destruct (Z.eqb_spec d 0) as [-> | _]; [contradiction |].
  destruct a; [reflexivity |]. simpl in Hn. unfold int32 in Hn.
  rewrite wrap32_id; [reflexivity |]. unfold int32.
  destruct (Z_lt_le_dec 0 d) as [Hpos | Hneg].
  - pose proof (Z.mod_pos_bound n d Hpos) as Hm.
    pose proof (Z.div_mod n d Hd) as Hdm. nia.
  - assert (Hlt : d < 0) by lia.
    pose proof (Z.mod_neg_bound n d Hlt) as Hm.
    pose proof (Z.div_mod n d Hd) as Hdm. nia.
Qed.

Lemma volume_stack_shape (IMAGE_STACK_SPACEGROUP : Z) (a : arith) (h : header) :
  401 <= ispg h <= 630 ->
  mz h <> 0 -> representable a (nz h) -> ~ (nz h = - 2 ^ 31 /\ mz h = -1) ->
  data_shape_from_header IMAGE_STACK_SPACEGROUP a h =
    Ok [nz h / mz h; mz h; ny h; nx h].
Proof.
  intros Hvol Hmz Hfit Hov. unfold data_shape_from_header.
  apply spacegroup_is_volume_stack_spec in Hvol.
  rewrite Hvol, floordiv_exact by assumption. reflexivity.
Qed.

(** C1: the shape follows three cases.  A space group in 401..630 gives
    (nz // mz, mz, ny, nx), the quotient being the floor of nz / mz wherever
    the division is defined; the image-stack space group (which lies outside
    401..630) with nz = 1 gives (ny, nx); every other header gives
    (nz, ny, nx). *)
Theorem data_shape_three_cases (IMAGE_STACK_SPACEGROUP : Z) (a : arith) (h : header) :
  (401 <= ispg h <= 630 ->
   data_shape_from_header IMAGE_STACK_SPACEGROUP a h =
     bind (floordiv a (nz h) (mz h)) (fun q => Ok [q; mz h; ny h; nx h])) /\
  (401 <= ispg h <= 630 ->
   mz h <> 0 -> representable a (nz h) -> ~ (nz h = - 2 ^ 31 /\ mz h = -1) ->
   data_shape_from_header IMAGE_STACK_SPACEGROUP a h =
     Ok [nz h / mz h; mz h; ny h; nx h]) /\
  (~ (401 <= IMAGE_STACK_SPACEGROUP <= 630) ->
   ispg h = IMAGE_STACK_SPACEGROUP -> nz h = 1 ->
   data_shape_from_header IMAGE_STACK_SPACEGROUP a h = Ok [ny h; nx h]) /\
  (~ (401 <= ispg h <= 630) ->
   ~ (ispg h = IMAGE_STACK_SPACEGROUP /\ nz h = 1) ->
   data_shape_from_header IMAGE_STACK_SPACEGROUP a h = Ok [nz h; ny h; nx h]).
Proof.
  unfold data_shape_from_header. repeat split.
  - intros Hvol. apply spacegroup_is_volume_stack_spec in Hvol.
    rewrite Hvol. reflexivity.
  - apply volume_stack_shape.
  - intros Hout Hispg Hnz. rewrite <- Hispg in Hout.
    apply spacegroup_is_volume_stack_false in Hout. rewrite Hout.
    rewrite Hispg, Hnz, !Z.eqb_refl. reflexivity.
  - intros Hout Hnot. apply spacegroup_is_volume_stack_false in Hout.
    rewrite Hout.
    destruct (Z.eqb_spec (ispg h) IMAGE_STACK_SPACEGROUP) as [He | Hne];
      destruct (Z.eqb_spec (nz h) 1) as [Hz | Hnz]; simpl;
      try reflexivity.
    exfalso. apply Hnot. split; assumption.
Qed.

Lemma data_shape_three_cases_witness :
  data_shape_from_header 0 NpInt32 (stack_header 401 6 2) = Ok [3; 2; 4; 5] /\
  data_shape_from_header 0 PyInt (stack_header 0 1 1) = Ok [4; 5] /\
  data_shape_from_header 0 PyInt (stack_header 1 6 2) = Ok [6; 4; 5].
Proof.
  pose proof (data_shape_three_cases 0 NpInt32 (stack_header 401 6 2))
    as (_ & H1 & _ & _).
  pose proof (data_shape_three_cases 0 PyInt (stack_header 0 1 1))
    as (_ & _ & H2 & _).
  pose proof (data_shape_three_cases 0 PyInt (stack_header 1 6 2))
    as (_ & _ & _ & H3).
  split; [| split].
  - apply H1; simpl; unfold int32; lia.
  - apply H2; simpl; [lia | reflexivity | reflexivity].
  - apply H3; simpl; lia.
Defined.

(** C5 (as stated) fails: with ispg = 401 and mz = 0 nothing guards the
    division.  On a numpy header the call returns the shape (0, 0, 4, 5); on
    Python integers it raises ZeroDivisionError. *)
Lemma zero_mz_is_divided :
  401 <= ispg (stack_header 401 6 0) <= 630 /\
  mz (stack_header 401 6 0) = 0 /\
  ~ fails_without_dividing (data_shape_from_header 0 NpInt32 (stack_header 401 6 0)) /\
  ~ fails_without_dividing (data_shape_from_header 0 PyInt (stack_header 401 6 0)).
Proof.
  split; [simpl; lia |]. split; [reflexivity |].
  split; intros (e & He & Hne); vm_compute in He.
  - discriminate He.
  - injection He as <-. apply Hne. reflexivity.
Qed.

(** C5 (amended): for a volume-stack space group and mz = 0 the shape
    resolver performs the division as it stands: on the int32 fields of a
    numpy header the quotient is 0 and the shape (0, 0, ny, nx) is returned,
    on Python integers the division raises ZeroDivisionError. *)
Theorem zero_mz_shape (IMAGE_STACK_SPACEGROUP : Z) (a : arith) (h : header) :
  401 <= ispg h <= 630 -> mz h = 0 ->
  data_shape_from_header IMAGE_STACK_SPACEGROUP a h =
    match a with
    | PyInt => Raise ZeroDivisionError
    | NpInt32 => Ok [0; 0; ny h; nx h]
    end.
Proof.
  intros Hvol Hmz. unfold data_shape_from_header.
  apply spacegroup_is_volume_stack_spec in Hvol. rewrite Hvol, Hmz.
  destruct a; reflexivity.
Qed.

Lemma zero_mz_shape_witness :
  data_shape_from_header 0 NpInt32 (stack_header 401 6 0) = Ok [0; 0; 4; 5].
Proof.
  apply (zero_mz_shape 0 NpInt32 (stack_header 401 6 0)); simpl; [lia | reflexivity].
Defined.

(** C10: for a volume-stack space group, mz > 0 and nz not a multiple of mz,
    the resolver returns (nz // mz, mz, ny, nx) with the floor quotient; the
    entries multiply to (nz - nz % mz) * ny * nx, which is strictly less than
    nz * ny * nx when ny and nx are positive. *)
Theorem partial_volume_dropped (IMAGE_STACK_SPACEGROUP : Z) (a : arith) (h : header) :
  401 <= ispg h <= 630 -> 0 < mz h -> nz h mod mz h <> 0 ->
  representable a (nz h) ->
  data_shape_from_header IMAGE_STACK_SPACEGROUP a h =
    Ok [nz h / mz h; mz h; ny h; nx h] /\
  product [nz h / mz h; mz h; ny h; nx h] = (nz h - nz h mod mz h) * ny h * nx h /\
  (0 < ny h -> 0 < nx h ->
   product [nz h / mz h; mz h; ny h; nx h] < nz h * ny h * nx h).
Proof.
  intros Hvol Hmz Hrem Hfit.
  assert (Hshape : data_shape_from_header IMAGE_STACK_SPACEGROUP a h =
                   Ok [nz h / mz h; mz h; ny h; nx h]).
  { apply volume_stack_shape; try assumption; lia. }
  assert (Hprod : product [nz h / mz h; mz h; ny h; nx h] =
                  (nz h - nz h mod mz h) * ny h * nx h).
  { unfold product, fold_right.
    pose proof (Z.div_mod (nz h) (mz h) ltac:(lia)) as Hdm.
    replace (nz h - nz h mod mz h) with (mz h * (nz h / mz h)) by lia. ring. }
  split; [exact Hshape |]. split; [exact Hprod |].
  intros Hny Hnx. rewrite Hprod.
  pose proof (Z.mod_pos_bound (nz h) (mz h) Hmz) as Hm.
  assert (Hpos : 0 < ny h * nx h) by lia.
  nia.
Qed.

Lemma partial_volume_dropped_witness :
  data_shape_from_header 0 NpInt32 (stack_header 401 6 5) = Ok [1; 5; 4; 5] /\
  product [1; 5; 4; 5] = (6 - 1) * 4 * 5 /\
  (0 < 4 -> 0 < 5 -> product [1; 5; 4; 5] < 6 * 4 * 5).
Proof.
  apply (partial_volume_dropped 0 NpInt32 (stack_header 401 6 5));
    simpl; unfold int32; try lia.
  vm_compute. discriminate.
Defined.

(** * Further properties of the mode codec *)

Ltac key_inv H :=
  first [ apply (proj1 (kind_and_size_eq _ "f" _ 2 _)) in H
        | apply (proj1 (kind_and_size_eq _ "f" _ 4 _)) in H
        | apply (proj1 (kind_and_size_eq _ "i" _ 1 _)) in H
        | apply (proj1 (kind_and_size_eq _ "i" _ 2 _)) in H
        | apply (proj1 (kind_and_size_eq _ "u" _ 1 _)) in H
        | apply (proj1 (kind_and_size_eq _ "u" _ 2 _)) in H
        | apply (proj1 (kind_and_size_eq _ "c" _ 8 _)) in H ];
  destruct H as [? ?].

(** [mode_from_dtype] returns exactly along the rows of the table. *)
Lemma mode_from_dtype_Ok (d : dtype) (m : Z) :
  mode_from_dtype d = Ok m <-> In (kind d, itemsize d, m) mode_table.
Proof.
  destruct d as [k n b]. split.
  - unfold mode_from_dtype. rewrite dtype_to_mode_lookup.
    repeat (case_decide as Hk;
            [ key_inv Hk; simplify_eq; intros H; injection H as <-;
              simpl; tauto | clear Hk ]).
    discriminate.
  - simpl. intros H.
    repeat destruct H as [H | H]; try contradiction;
      injection H as <- <- <-; reflexivity.
Qed.

Ltac table_cases H :=
  apply mode_from_dtype_Ok in H; simpl in H;
  repeat destruct H as [H | H]; try contradiction; simplify_eq.

(** X1: the other round trip is the identity: for every mode that
    [dtype_from_mode] recognises, given as any number, converting the dtype
    back with [mode_from_dtype] returns that mode. *)
Theorem mode_of_dtype_of_mode (x : number) :
  In (int x) recognised_modes ->
  bind (dtype_from_mode x) mode_from_dtype = Ok (int x).
Proof.
  unfold dtype_from_mode. generalize (int x). intros m H. simpl in H.
  repeat destruct H as [<- | H]; try contradiction; vm_compute; reflexivity.
Qed.

Lemma mode_of_dtype_of_mode_witness :
  In (int (Float (65 # 10))) recognised_modes /\
  bind (dtype_from_mode (Float (65 # 10))) mode_from_dtype = Ok 6.
Proof.
  assert (H : In (int (Float (65 # 10))) recognised_modes).
  { vm_compute. tauto. }
  split; [exact H | exact (mode_of_dtype_of_mode (Float (65 # 10)) H)].
Defined.

(** X2: [mode_from_dtype] never returns a mode that [dtype_from_mode]
    rejects, mode 3 in particular: whatever dtype it accepts, the mode is
    one of 0, 1, 2, 4, 6. *)
Theorem mode_from_dtype_recognised (d : dtype) (m : Z) :
  mode_from_dtype d = Ok m -> In m recognised_modes /\ m <> 3.
Proof.
  intros H. table_cases H; (split; [simpl; tauto | discriminate]).
Qed.

Lemma mode_from_dtype_recognised_witness :
  mode_from_dtype (Dtype "u" 1 ">") = Ok 6 /\ In 6 recognised_modes /\ 6 <> 3.
Proof.
  assert (H : mode_from_dtype (Dtype "u" 1 ">") = Ok 6) by reflexivity.
  split; [exact H | exact (mode_from_dtype_recognised _ _ H)].
Defined.

(** X3: for every dtype [mode_from_dtype] accepts, whatever its byte order,
    the mode converts back to a dtype of the same kind, at least as wide and
    at most twice as wide, in native byte order ('=', or '|' for one-byte
    elements): the round trip drops the byte order of the dtype. *)
Theorem round_trip_any_byte_order (d : dtype) (m : Z) :
  mode_from_dtype d = Ok m ->
  exists t, dtype_from_mode (Int m) = Ok t /\
    kind t = kind d /\
    (itemsize d <= itemsize t <= 2 * itemsize d)%N /\
    (byteorder t = "="%char \/ byteorder t = "|"%char).
Proof.
  intros H. destruct d as [k n b]. table_cases H;
    (eexists; split; [vm_compute; reflexivity |]);
    (split; [reflexivity |]); (split; [simpl; lia |]); simpl; tauto.
Qed.

Lemma round_trip_any_byte_order_witness :
  mode_from_dtype (Dtype "i" 2 ">") = Ok 1 /\
  exists t, dtype_from_mode (Int 1) = Ok t /\
    kind t = "i"%char /\ (2 <= itemsize t <= 2 * 2)%N /\
    (byteorder t = "="%char \/ byteorder t = "|"%char).
Proof.
  assert (H : mode_from_dtype (Dtype "i" 2 ">") = Ok 1) by reflexivity.
  split; [exact H | exact (round_trip_any_byte_order _ _ H)].
Defined.

(** X4: one pass through the mode is enough: the dtype a round trip returns
    is returned unchanged by a second round trip. *)
Theorem round_trip_idempotent (d t : dtype) :
  round_trip d = Ok t -> round_trip t = Ok t.
Proof.
  unfold round_trip. destruct (mode_from_dtype d) as [m | e] eqn:E;
    [| discriminate].
  cbn [bind]. intros Hrt.
  table_cases E; vm_compute in Hrt; injection Hrt as <-; vm_compute; reflexivity.
Qed.

Lemma round_trip_idempotent_witness :
  round_trip np_float16 = Ok np_float32 /\ round_trip np_float32 = Ok np_float32.
Proof.
  assert (H : round_trip np_float16 = Ok np_float32) by reflexivity.
  split; [exact H | exact (round_trip_idempotent _ _ H)].
Defined.

(** X5: two dtypes share a mode only if they are of the same kind and one
    is at most twice as wide as the other: the table merges widths, never
    kinds. *)
Theorem same_mode_same_kind (d1 d2 : dtype) (m : Z) :
  mode_from_dtype d1 = Ok m -> mode_from_dtype d2 = Ok m ->
  kind d1 = kind d2 /\
  (itemsize d1 <= 2 * itemsize d2)%N /\ (itemsize d2 <= 2 * itemsize d1)%N.
Proof.
  intros H1 H2. destruct d1 as [k1 n1 b1], d2 as [k2 n2 b2].
  table_cases H1; table_cases H2; simpl; (split; [reflexivity | lia]).
Qed.

Lemma same_mode_same_kind_witness :
  mode_from_dtype np_uint8 = Ok 6 /\ mode_from_dtype np_uint16 = Ok 6 /\
  kind np_uint8 = kind np_uint16 /\
  (itemsize np_uint8 <= 2 * itemsize np_uint16)%N /\
  (itemsize np_uint16 <= 2 * itemsize np_uint8)%N.
Proof.
  assert (H1 : mode_from_dtype np_uint8 = Ok 6) by reflexivity.
  assert (H2 : mode_from_dtype np_uint16 = Ok 6) by reflexivity.
  split; [exact H1 |]. split; [exact H2 |].
  exact (same_mode_same_kind _ _ _ H1 H2).
Defined.

Lemma int_float_floor (q : Q) (z : Z) :
  0 <= z -> (inject_Z z <= q)%Q -> (q < inject_Z (z + 1))%Q ->
  int (Float q) = z.
Proof.
  destruct q as [n d]. unfold Qle, Qlt, inject_Z, int. simpl.
  intros Hz Hlo Hhi.
  rewrite Z.quot_div_nonneg by lia.
  symmetry. apply Z.div_unique with (r := n - z * Z.pos d); lia.
Qed.

Lemma int_float_small (q : Q) :
  (inject_Z (-1) < q)%Q -> (q < inject_Z 1)%Q -> int (Float q) = 0.
Proof.
  destruct q as [n d]. unfold Qlt, inject_Z, int. simpl.
  intros Hlo Hhi.
  destruct (Z_le_gt_dec 0 n) as [Hn | Hn].
  - apply Z.quot_small. lia.
  - rewrite <- (Z.opp_involutive n), Z.quot_opp_l by lia.
    rewrite Z.quot_small by lia. reflexivity.
Qed.

(** X6: a float mode is truncated towards zero before the lookup: a float
    in [z, z+1), z >= 0, selects what the integer z selects, and every float
    strictly between -1 and 1, the negative ones included, selects int8 as
    mode 0 does. *)
Theorem float_mode_truncated (q : Q) (z : Z) :
  (0 <= z -> (inject_Z z <= q)%Q -> (q < inject_Z (z + 1))%Q ->
   dtype_from_mode (Float q) = dtype_from_mode (Int z)) /\
  ((inject_Z (-1) < q)%Q -> (q < inject_Z 1)%Q ->
   dtype_from_mode (Float q) = Ok np_int8).
Proof.
  split.
  - intros Hz Hlo Hhi. unfold dtype_from_mode.
    rewrite (int_float_floor q z Hz Hlo Hhi). reflexivity.
  - intros Hlo Hhi. unfold dtype_from_mode.
    rewrite (int_float_small q Hlo Hhi). reflexivity.
Qed.

Lemma float_mode_truncated_witness :
  dtype_from_mode (Float (399 # 100)) =
    Raise (ValueError (UnrecognisedMode 3)) /\
  dtype_from_mode (Float (- (9 # 10))) = Ok np_int8.
Proof.
  split.
  - apply (proj1 (float_mode_truncated (399 # 100) 3)); [lia | |];
      unfold Qle, Qlt; simpl; lia.
  - apply (proj2 (float_mode_truncated (- (9 # 10)) 0));
      unfold Qlt; simpl; lia.
Defined.

(** * The data dtype of a header *)

Lemma dtype_from_mode_unrecognised (m : Z) :
  ~ In m recognised_modes ->
  dtype_from_mode (Int m) = Raise (ValueError (UnrecognisedMode m)).
Proof.
  unfold dtype_from_mode, recognised_modes, In, int.
  rewrite mode_to_dtype_lookup.
  intros H. repeat case_decide; try reflexivity; exfalso; intuition congruence.
Qed.

Lemma recognised_mode_row (m : Z) :
  In m recognised_modes ->
  exists t, dtype_from_mode (Int m) = Ok t /\
            In (kind t, itemsize t, m) mode_table.
Proof.
  simpl. intros H.
  repeat destruct H as [<- | H]; try contradiction;
    (eexists; split; [vm_compute; reflexivity | simpl; tauto]).
Qed.

(** X7: the data dtype of a header is refused exactly when the header's mode
    is not one of 0, 1, 2, 4, 6, and then with the ValueError of
    [dtype_from_mode] naming the mode: the byte order plays no part in the
    failure. *)
Theorem data_dtype_raises_iff (newbyteorder : dtype -> ascii -> dtype)
    (o : ascii) (h : header) :
  (raises (data_dtype_from_header newbyteorder o h) <->
   ~ In (mode h) recognised_modes) /\
  (~ In (mode h) recognised_modes ->
   data_dtype_from_header newbyteorder o h =
     Raise (ValueError (UnrecognisedMode (mode h)))).
Proof.
  assert (Hbad : ~ In (mode h) recognised_modes ->
                 data_dtype_from_header newbyteorder o h =
                   Raise (ValueError (UnrecognisedMode (mode h)))).
  { intros H. unfold data_dtype_from_header.
    rewrite (dtype_from_mode_unrecognised _ H). reflexivity. }
  split; [| exact Hbad]. split.
  - intros [e He] Hin. unfold data_dtype_from_header in He.
    destruct (recognised_mode_row _ Hin) as (t & Ht & _).
    rewrite Ht in He. discriminate He.
  - intros H. eexists. exact (Hbad H).
Qed.

Lemma data_dtype_raises_iff_witness :
  ~ In (mode (mode_header 3)) recognised_modes /\
  data_dtype_from_header (fun t _ => t) "<" (mode_header 3) =
    Raise (ValueError (UnrecognisedMode 3)).
Proof.
  assert (H : ~ In (mode (mode_header 3)) recognised_modes) by (simpl; lia).
  split; [exact H |].
  exact (proj2 (data_dtype_raises_iff (fun t _ => t) "<" (mode_header 3)) H).
Defined.

(** X8: whatever byte order the header was decoded with, the data dtype of a
    header with a recognised mode converts back to that mode, provided
    [newbyteorder] changes nothing but the byte order. *)
Theorem data_dtype_mode (newbyteorder : dtype -> ascii -> dtype)
    (o : ascii) (h : header) :
  (forall t b, kind (newbyteorder t b) = kind t) ->
  (forall t b, itemsize (newbyteorder t b) = itemsize t) ->
  In (mode h) recognised_modes ->
  bind (data_dtype_from_header newbyteorder o h) mode_from_dtype = Ok (mode h).
Proof.
  intros Hkind Hsize Hin. unfold data_dtype_from_header.
  destruct (recognised_mode_row _ Hin) as (t & Ht & Hrow).
  rewrite Ht. cbn [bind]. apply mode_from_dtype_Ok.
  rewrite Hkind, Hsize. exact Hrow.
Qed.

Lemma data_dtype_mode_witness :
  bind (data_dtype_from_header (fun t b => Dtype (kind t) (itemsize t) b) ">"
          (mode_header 6)) mode_from_dtype = Ok 6.
Proof.
  apply (data_dtype_mode (fun t b => Dtype (kind t) (itemsize t) b) ">"
           (mode_header 6)).
  - reflexivity.
  - reflexivity.
  - simpl. tauto.
Defined.

(** * Further properties of the machine stamp *)

Lemma machine_stamp_Ok (sys_byteorder byte_order : string) (stamp : list Z) :
  machine_stamp_from_byte_order sys_byteorder byte_order = Ok stamp <->
  (resolved_byte_order sys_byteorder byte_order = "<" /\
   stamp = little_endian_stamp) \/
  (resolved_byte_order sys_byteorder byte_order = ">" /\
   stamp = big_endian_stamp).
Proof.
  unfold machine_stamp_from_byte_order, resolved_byte_order.
  generalize (if String.eqb byte_order "="
              then (if String.eqb sys_byteorder "little" then "<" else ">")
              else byte_order).
  intros r. unfold _byte_order_to_machine_stamp.
  rewrite !lookup_insert, lookup_empty.
  repeat case_decide; subst;
    (split; [ intros Hs; simplify_eq; auto
            | intros [[? ?] | [? ?]]; simplify_eq; auto ]).
Qed.

(** X9: a stamp that is returned is four bytes, and two indicators get the
    same stamp only if they stand for the same byte order once '=' is
    replaced with the native order: the byte order can be read back from
    the stamp. *)
Theorem stamp_identifies_byte_order (sys_byteorder o1 o2 : string)
    (stamp : list Z) :
  machine_stamp_from_byte_order sys_byteorder o1 = Ok stamp ->
  machine_stamp_from_byte_order sys_byteorder o2 = Ok stamp ->
  resolved_byte_order sys_byteorder o1 = resolved_byte_order sys_byteorder o2 /\
  length stamp = 4%nat /\ Forall (fun b => 0 <= b < 256) stamp.
Proof.
  intros H1 H2. apply machine_stamp_Ok in H1, H2.
  destruct H1 as [[R1 ->] | [R1 ->]], H2 as [[R2 E] | [R2 E]];
    try discriminate E;
    (split; [congruence |]);
    (split; [reflexivity |]);
    unfold little_endian_stamp, big_endian_stamp;
    repeat constructor; lia.
Qed.

Lemma stamp_identifies_byte_order_witness :
  resolved_byte_order "big" "=" = resolved_byte_order "big" ">" /\
  length big_endian_stamp = 4%nat /\
  Forall (fun b => 0 <= b < 256) big_endian_stamp.
Proof.
  apply (stamp_identifies_byte_order "big" "=" ">" big_endian_stamp);
    reflexivity.
Defined.

(** * Further properties of the data shape *)

Lemma floordiv_Ok_or_zero_division (a : arith) (n d : Z) :
  (exists q, floordiv a n d = Ok q) \/
  (a = PyInt /\ d = 0 /\ floordiv a n d = Raise ZeroDivisionError).
Proof.
  unfold floordiv. destruct a; destruct (Z.eqb_spec d 0) as [-> | Hd]; eauto.
Qed.

(** X10: every shape returned has two, three or four entries and ends in
    (ny, nx); it has four exactly for a volume-stack space group, and two
    exactly for the image-stack space group with nz = 1 outside that
    range. *)
Theorem shape_rank (IMAGE_STACK_SPACEGROUP : Z) (a : arith) (h : header)
    (shape : list Z) :
  data_shape_from_header IMAGE_STACK_SPACEGROUP a h = Ok shape ->
  (exists front, shape = front ++ [ny h; nx h]) /\
  (2 <= length shape <= 4)%nat /\
  (length shape = 4%nat <-> 401 <= ispg h <= 630) /\
  (length shape = 2%nat <->
   ~ (401 <= ispg h <= 630) /\ ispg h = IMAGE_STACK_SPACEGROUP /\ nz h = 1).
Proof.
  unfold data_shape_from_header.
  destruct (spacegroup_is_volume_stack (ispg h)) eqn:Hvol.
  - apply spacegroup_is_volume_stack_spec in Hvol.
    destruct (floordiv a (nz h) (mz h)) as [q | e]; [| discriminate].
    cbn [bind]. intros H. injection H as <-.
    split; [exists [q; mz h]; reflexivity |]. simpl.
    split; [lia |]. split; [tauto |]. split; [discriminate | tauto].
  - apply spacegroup_is_volume_stack_false in Hvol.
    destruct (Z.eqb_spec (ispg h) IMAGE_STACK_SPACEGROUP) as [He | Hne];
      destruct (Z.eqb_spec (nz h) 1) as [Hz | Hnz]; cbn [andb];
      intros H; injection H as <-; simpl;
      (split; [first [ exists []; reflexivity | exists [nz h]; reflexivity ] |]);
      (split; [lia |]); (split; [split; [discriminate | tauto] |]);
      split; try discriminate; tauto.
Qed.

Lemma shape_rank_witness :
  data_shape_from_header 0 PyInt (stack_header 0 1 1) = Ok [4; 5] /\
  (exists front, [4; 5] = front ++ [4; 5]) /\
  (2 <= length [4; 5] <= 4)%nat /\
  (length [4; 5] = 4%nat <-> 401 <= 0 <= 630) /\
  (length [4; 5] = 2%nat <-> ~ (401 <= 0 <= 630) /\ 0 = 0 /\ 1 = 1).
Proof.
  assert (H : data_shape_from_header 0 PyInt (stack_header 0 1 1) = Ok [4; 5])
    by reflexivity.
  split; [exact H | exact (shape_rank 0 PyInt (stack_header 0 1 1) [4; 5] H)].
Defined.

(** X11: the shape resolver raises in one situation only: on Python
    integers, for a volume-stack space group with mz = 0, and what it
    raises then is ZeroDivisionError.  On the int32 fields of a numpy header
    it always returns a shape. *)
Theorem shape_raises_iff (IMAGE_STACK_SPACEGROUP : Z) (a : arith) (h : header) :
  (raises (data_shape_from_header IMAGE_STACK_SPACEGROUP a h) <->
   a = PyInt /\ 401 <= ispg h <= 630 /\ mz h = 0) /\
  (forall e, data_shape_from_header IMAGE_STACK_SPACEGROUP a h = Raise e ->
             e = ZeroDivisionError).
Proof.
  unfold raises, data_shape_from_header.
  destruct (spacegroup_is_volume_stack (ispg h)) eqn:Hvol.
  - apply spacegroup_is_volume_stack_spec in Hvol.
    destruct (floordiv_Ok_or_zero_division a (nz h) (mz h))
      as [[q Hq] | (Ha & Hd & Hq)]; rewrite Hq; cbn [bind].
    + split; [| intros e He; discriminate He]. split.
      * intros [e He]. discriminate He.
      * intros (-> & _ & Hmz). unfold floordiv in Hq. rewrite Hmz in Hq.
        discriminate Hq.
    + split; [| intros e He; injection He as <-; reflexivity].
      split; [intros _; tauto | intros _; eauto].
  - apply spacegroup_is_volume_stack_false in Hvol.
    destruct ((ispg h =? IMAGE_STACK_SPACEGROUP) && (nz h =? 1));
      (split; [| intros e He; discriminate He]);
      (split; [intros [e He]; discriminate He | tauto]).
Qed.

Lemma shape_raises_iff_witness :
  raises (data_shape_from_header 0 PyInt (stack_header 401 6 0)) /\
  ~ raises (data_shape_from_header 0 NpInt32 (stack_header 401 6 0)).
Proof.
  split.
  - apply (proj1 (shape_raises_iff 0 PyInt (stack_header 401 6 0))).
    split; [reflexivity | simpl; lia].
  - intros H.
    apply (proj1 (shape_raises_iff 0 NpInt32 (stack_header 401 6 0))) in H.
    destruct H as [H _]. discriminate H.
Defined.

(** X12: outside the volume-stack space groups no element is lost or
    invented: a shape is always returned and its entries multiply to
    nz * ny * nx, in the two-dimensional case too. *)
Theorem plain_shape_keeps_count (IMAGE_STACK_SPACEGROUP : Z) (a : arith)
    (h : header) :
  ~ (401 <= ispg h <= 630) ->
  exists shape,
    data_shape_from_header IMAGE_STACK_SPACEGROUP a h = Ok shape /\
    product shape = nz h * ny h * nx h.
Proof.
  intros Hout. unfold data_shape_from_header.
  apply spacegroup_is_volume_stack_false in Hout. rewrite Hout.
  destruct (Z.eqb_spec (ispg h) IMAGE_STACK_SPACEGROUP) as [He | Hne];
    destruct (Z.eqb_spec (nz h) 1) as [Hz | Hnz]; cbn [andb];
    eexists; (split; [reflexivity |]); unfold product, fold_right;
    try rewrite Hz; ring.
Qed.

Lemma plain_shape_keeps_count_witness :
  exists shape,
    data_shape_from_header 0 NpInt32 (stack_header 0 1 1) = Ok shape /\
    product shape = 1 * 4 * 5.
Proof.
  apply (plain_shape_keeps_count 0 NpInt32 (stack_header 0 1 1)).
  simpl. lia.
Defined.

(** X13: for a volume-stack space group with positive mz, ny and nx, the
    entries of the shape multiply to nz * ny * nx exactly when mz divides
    nz. *)
Theorem stack_keeps_count_iff_divisible (IMAGE_STACK_SPACEGROUP : Z)
    (a : arith) (h : header) :
  401 <= ispg h <= 630 -> 0 < mz h -> 0 < ny h -> 0 < nx h ->
  representable a (nz h) ->
  exists shape,
    data_shape_from_header IMAGE_STACK_SPACEGROUP a h = Ok shape /\
    (product shape = nz h * ny h * nx h <-> nz h mod mz h = 0).
Proof.
  intros Hvol Hmz Hny Hnx Hfit.
  exists [nz h / mz h; mz h; ny h; nx h].
  split; [apply volume_stack_shape; try assumption; lia |].
  unfold product, fold_right.
  pose proof (Z.div_mod (nz h) (mz h) ltac:(lia)) as Hdm.
  pose proof (Z.mod_pos_bound (nz h) (mz h) Hmz) as Hm.
  assert (Hpos : 0 < ny h * nx h) by lia.
  replace (nz h / mz h * (mz h * (ny h * (nx h * 1))))
    with ((nz h - nz h mod mz h) * (ny h * nx h))
    by (replace (nz h - nz h mod mz h) with (mz h * (nz h / mz h)) by lia; ring).
  replace (nz h * ny h * nx h) with (nz h * (ny h * nx h)) by ring.
  split; intros H; nia.
Qed.

Lemma stack_keeps_count_iff_divisible_witness :
  exists shape,
    data_shape_from_header 0 NpInt32 (stack_header 401 6 2) = Ok shape /\
    (product shape = 6 * 4 * 5 <-> 6 mod 2 = 0).
Proof.
  apply (stack_keeps_count_iff_divisible 0 NpInt32 (stack_header 401 6 2));
    simpl; unfold int32; lia.
Defined.

(** X14: for a volume-stack space group with positive mz and non-negative
    nz, the number of volumes in the shape is between 0 and nz, and the
    volumes never hold more sections than the header declares. *)
Theorem stack_volumes_bounded (IMAGE_STACK_SPACEGROUP : Z) (a : arith)
    (h : header) :
  401 <= ispg h <= 630 -> 0 < mz h -> 0 <= nz h -> representable a (nz h) ->
  exists volumes,
    data_shape_from_header IMAGE_STACK_SPACEGROUP a h =
      Ok [volumes; mz h; ny h; nx h] /\
    0 <= volumes <= nz h /\ volumes * mz h <= nz h < (volumes + 1) * mz h.
Proof.
  intros Hvol Hmz Hnz Hfit. exists (nz h / mz h).
  split; [apply volume_stack_shape; try assumption; lia |].
  pose proof (Z.div_mod (nz h) (mz h) ltac:(lia)) as Hdm.
  pose proof (Z.mod_pos_bound (nz h) (mz h) Hmz) as Hm.
  assert (0 <= nz h / mz h) by (apply Z.div_pos; lia).
  nia.
Qed.

Lemma stack_volumes_bounded_witness :
  exists volumes,
    data_shape_from_header 0 PyInt (stack_header 401 7 3) = Ok [volumes; 3; 4; 5] /\
    0 <= volumes <= 7 /\ volumes * 3 <= 7 < (volumes + 1) * 3.
Proof.
  apply (stack_volumes_bounded 0 PyInt (stack_header 401 7 3)); simpl; lia.
Defined.

(** * Properties of the validation engine *)

Import Validation.

(** ** The engine on the files of the test suite

    Each example runs the engine on the file of the test of the same name;
    what the test asserts can be read off the result. *)

Example test_good_file : validate_test good_file = Run true [] [].
Proof. vm_compute. reflexivity. Qed.

Example test_incorrect_map_id :
  validate_test (arange_file
    (with_identity arange_header "fake" little_endian_stamp 2 20140)) =
  Run false [MapIdIncorrect "fake"] [MapIdIncorrect "fake"].
Proof. vm_compute. reflexivity. Qed.

Example test_incorrect_machine_stamp :
  validate_test (arange_file
    (with_identity arange_header "MAP " [32; 32; 32; 32] 2 20140)) =
  Run false [MachineStampInvalid [32; 32; 32; 32]]
            [MachineStampInvalid [32; 32; 32; 32]].
Proof. vm_compute. reflexivity. Qed.

Example test_invalid_mode :
  validate_test (arange_file
    (with_identity arange_header "MAP " little_endian_stamp 8 20140)) =
  Run false [ModeInvalid 8] [ModeInvalid 8].
Proof. vm_compute. reflexivity. Qed.

Example test_file_too_small :
  validate_test too_small_file =
  Run false [DataBlockTooSmall 96 48] [DataBlockTooSmall 96 48].
Proof. vm_compute. reflexivity. Qed.

Example test_file_too_large :
  let r := validate_test too_large_file in
  valid r = false /\ In (DataBlockTooLarge 96 144) (print_file r) /\
  warned r = [DataBlockTooLarge 96 144].
Proof. vm_compute. tauto. Qed.

Example test_incorrect_format_version :
  let r := validate_test (arange_file
    (with_identity arange_header "MAP " little_endian_stamp 2 20139)) in
  valid r = false /\ print_file r = [FormatVersion 20139].
Proof. vm_compute. tauto. Qed.

Example test_incorrect_rms :
  validate_test (arange_file
    (with_statistics arange_header (-10) 19 (45 # 10) 9)) =
  Run false [StatisticRms (8655442 # 1000000) 9] [].
Proof. vm_compute. reflexivity. Qed.

Example test_rms_undetermined :
  validate_test (arange_file
    (with_statistics arange_header (-10) 19 (45 # 10) (-15))) = Run true [] [].
Proof. vm_compute. reflexivity. Qed.

Example test_incorrect_dmin :
  validate_test (arange_file
    (with_statistics arange_header (-11) 19 (45 # 10) (8655442 # 1000000))) =
  Run false [StatisticMinimum (-10) (-11)] [].
Proof. vm_compute. reflexivity. Qed.

Example test_incorrect_dmax :
  validate_test (arange_file
    (with_statistics arange_header (-10) 15 (45 # 10) (8655442 # 1000000))) =
  Run false [StatisticMaximum 19 15] [].
Proof. vm_compute. reflexivity. Qed.

Example test_min_and_max_undetermined :
  validate_test (arange_file
    (with_statistics arange_header (301 # 10) 30 (45 # 10) (8655442 # 1000000))) =
  Run true [] [].
Proof. vm_compute. reflexivity. Qed.

Example test_incorrect_dmean :
  validate_test (arange_file
    (with_statistics arange_header (-10) 19 (- (25 # 10)) (8655442 # 1000000))) =
  Run false [StatisticMean (45 # 10) (- (25 # 10))] [].
Proof. vm_compute. reflexivity. Qed.

Example test_incorrect_dmean_with_undetermined_dmin_and_dmax :
  validate_test (arange_file
    (with_statistics arange_header 20 (- (301 # 10)) (- (25 # 10))
       (8655442 # 1000000))) =
  Run false [StatisticMean (45 # 10) (- (25 # 10))] [].
Proof. vm_compute. reflexivity. Qed.

Example test_mean_undetermined :
  validate_test (arange_file
    (with_statistics arange_header (-10) 19 (-11) (8655442 # 1000000))) =
  Run true [] [].
Proof. vm_compute. reflexivity. Qed.

Example test_min_max_and_mean_undetermined :
  validate_test (arange_file
    (with_statistics arange_header (301 # 10) 30 (299 # 10) (8655442 # 1000000))) =
  Run true [] [].
Proof. vm_compute. reflexivity. Qed.

Example test_many_problems_simultaneously :
  let r := validate_test many_problems_file in
  valid r = false /\ length (print_file r) = 14%nat.
Proof. vm_compute. tauto. Qed.

(** ** What a run accumulates *)

Lemma fold_check_valid {S : Type} (print : diagnostic -> S -> S)
    (f : mrc_file) (rs : list rule) (st : run S) :
  valid (fold_left (check print f) rs st) =
  valid st && forallb (fun r => negb (violated r f)) rs.
Proof.
  revert st. induction rs as [| r rs IH]; intros st; simpl.
  - rewrite andb_true_r. reflexivity.
  - rewrite IH. unfold check. destruct (violated r f); simpl.
    + rewrite andb_false_r. reflexivity.
    + reflexivity.
Qed.

Lemma fold_check_warned {S : Type} (print : diagnostic -> S -> S)
    (f : mrc_file) (rs : list rule) (st : run S) :
  warned (fold_left (check print f) rs st) =
  warned st ++ flat_map (warned_by f) rs.
Proof.
  revert st. induction rs as [| r rs IH]; intros st; simpl.
  - rewrite app_nil_r. reflexivity.
  - rewrite IH. unfold check, warned_by.
    destruct (violated r f); simpl; [| reflexivity].
    destruct (signalled r); simpl; [| reflexivity].
    rewrite <- app_assoc. reflexivity.
Qed.

Lemma fold_check_printed (f : mrc_file) (rs : list rule) (st : run (list diagnostic)) :
  print_file (fold_left (check write f) rs st) =
  print_file st ++ flat_map (printed_by f) rs.
Proof.
  revert st. induction rs as [| r rs IH]; intros st; simpl.
  - rewrite app_nil_r. reflexivity.
  - rewrite IH. unfold check, printed_by.
    destruct (violated r f); simpl; [| reflexivity].
    unfold write. rewrite <- app_assoc. reflexivity.
Qed.

Lemma printed_by_filter (f : mrc_file) (rs : list rule) :
  flat_map (printed_by f) rs =
  List.map (fun r => line r f) (List.filter (fun r => violated r f) rs).
Proof.
  induction rs as [| r rs IH]; simpl; [reflexivity |].
  unfold printed_by at 1. destruct (violated r f); simpl; congruence.
Qed.

Lemma no_violation_iff (f : mrc_file) (rs : list rule) :
  forallb (fun r => negb (violated r f)) rs = true <->
  List.filter (fun r => violated r f) rs = [].
Proof.
  induction rs as [| r rs IH]; simpl; [tauto |].
  destruct (violated r f); simpl; [| exact IH].
  split; discriminate.
Qed.

(** The lines printed to an empty stream are those of the violated rules,
    in the order of the rules. *)
Lemma validate_printed (c : constants) (f : mrc_file) :
  print_file (validate c write f []) =
  List.map (fun r => line r f) (List.filter (fun r => violated r f) (rules c)).
Proof.
  unfold validate. rewrite fold_check_printed. cbn [print_file app].
  apply printed_by_filter.
Qed.

Lemma validate_valid {S : Type} (print : diagnostic -> S -> S)
    (c : constants) (f : mrc_file) (sink : S) :
  valid (validate c print f sink) =
  forallb (fun r => negb (violated r f)) (rules c).
Proof. unfold validate. rewrite fold_check_valid. reflexivity. Qed.

Lemma validate_warned {S : Type} (print : diagnostic -> S -> S)
    (c : constants) (f : mrc_file) (sink : S) :
  warned (validate c print f sink) = flat_map (warned_by f) (rules c).
Proof. unfold validate. rewrite fold_check_warned. reflexivity. Qed.

Lemma validate_true_iff_empty (c : constants) (f : mrc_file) :
  valid (validate c write f []) = true <-> print_file (validate c write f []) = [].
Proof.
  rewrite validate_valid, validate_printed, no_violation_iff.
  split; [intros ->; reflexivity |].
  intros H. destruct (List.filter _ (rules c)); [reflexivity | discriminate H].
Qed.

(** C3: validation of any file returns a boolean, and it returns False
    exactly when it printed at least one line: the output is empty exactly
    when the result is True.  However many rules a file violates, the output
    holds one line for each violated rule, in the order of the rules. *)
Theorem validate_false_iff_printed (c : constants) (f : mrc_file) :
  let r := validate c write f [] in
  (valid r = false <-> print_file r <> []) /\
  (valid r = true <-> print_file r = []) /\
  print_file r =
    List.map (fun ru => line ru f) (List.filter (fun ru => violated ru f) (rules c)) /\
  length (print_file r) =
    length (List.filter (fun ru => violated ru f) (rules c)).
Proof.
  intros r. subst r.
  pose proof (validate_true_iff_empty c f) as Htrue.
  split; [| split; [exact Htrue | split]].
  - rewrite <- Htrue. destruct (valid _); split; congruence.
  - apply validate_printed.
  - rewrite validate_printed. apply length_map.
Qed.

(** ** The lines and warnings about one condition *)

Lemma filter_flat_map {A B : Type} (q : B -> bool) (h : A -> list B) (l : list A) :
  List.filter q (flat_map h l) = flat_map (fun a => List.filter q (h a)) l.
Proof.
  induction l as [| a l IH]; simpl; [reflexivity |].
  rewrite List.filter_app, IH. reflexivity.
Qed.

Lemma filter_printed (q : diagnostic -> bool) (c : constants) (f : mrc_file) :
  List.filter q (print_file (validate c write f [])) =
  flat_map (selected q false f) (rules c).
Proof.
  unfold validate. rewrite fold_check_printed. cbn [print_file app].
  rewrite filter_flat_map. apply flat_map_ext. intros r.
  unfold printed_by, selected. destruct (violated r f); simpl; [| reflexivity].
  destruct (q (line r f)); reflexivity.
Qed.

Lemma filter_warned {S : Type} (print : diagnostic -> S -> S)
    (q : diagnostic -> bool) (c : constants) (f : mrc_file) (sink : S) :
  List.filter q (warned (validate c print f sink)) =
  flat_map (selected q true f) (rules c).
Proof.
  rewrite validate_warned, filter_flat_map. apply flat_map_ext. intros r.
  unfold warned_by, selected. destruct (violated r f); simpl; [| reflexivity].
  destruct (signalled r); simpl; [| reflexivity].
  destruct (q (line r f)); reflexivity.
Qed.

Ltac select_rule :=
  unfold rules;
  cbv [flat_map selected line signalled negative_field negative_cell statistic
       about implb];
  rewrite ?andb_false_r, ?andb_true_r; cbn [app].

Ltac by_violation :=
  cbv [violated holds message]; rewrite ?app_nil_r;
  match goal with
  | |- context [negb ?b] => destruct b; reflexivity
  | |- _ => reflexivity
  end.

Lemma printed_about (c : constants) (k : condition) (f : mrc_file) :
  List.filter (about k) (print_file (validate c write f [])) =
  if holds c k f then [] else [message k f].
Proof. rewrite filter_printed. destruct k; select_rule; by_violation. Qed.

Lemma warned_about {S : Type} (print : diagnostic -> S -> S)
    (c : constants) (k : condition) (f : mrc_file) (sink : S) :
  List.filter (about k) (warned (validate c print f sink)) =
  if holds c k f then [] else [message k f].
Proof. rewrite filter_warned. destruct k; select_rule; by_violation. Qed.

(** C9: for each of the four dual-signalled conditions (magic string,
    machine stamp, mode recognition, format version), a file that violates
    it gets exactly one warning about it and exactly one printed line about
    it, and a file that meets it gets none; the warnings are the same
    whichever sink the lines are printed to, one that discards them
    included. *)
Theorem one_warning_per_violated_condition {S : Type}
    (print : diagnostic -> S -> S) (sink : S)
    (c : constants) (k : condition) (f : mrc_file) :
  warned (validate c print f sink) = warned (validate c write f []) /\
  warned (validate c discard f tt) = warned (validate c write f []) /\
  (holds c k f = false ->
   List.filter (about k) (warned (validate c print f sink)) = [message k f] /\
   List.filter (about k) (print_file (validate c write f [])) = [message k f] /\
   valid (validate c print f sink) = false) /\
  (holds c k f = true ->
   List.filter (about k) (warned (validate c print f sink)) = [] /\
   List.filter (about k) (print_file (validate c write f [])) = []).
Proof.
  split; [rewrite !validate_warned; reflexivity |].
  split; [rewrite !validate_warned; reflexivity |].
  split; intros H.
  - assert (Hout : List.filter (about k) (print_file (validate c write f [])) =
                   [message k f]) by (rewrite printed_about, H; reflexivity).
    rewrite warned_about, H. repeat split; [exact Hout |].
    rewrite validate_valid, <- (validate_valid write c f []).
    destruct (valid (validate c write f [])) eqn:Hv; [| reflexivity].
    apply validate_true_iff_empty in Hv. rewrite Hv in Hout.
    discriminate Hout.
  - rewrite warned_about, printed_about, H. split; reflexivity.
Qed.

Lemma one_warning_per_violated_condition_witness :
  let f := arange_file (with_identity arange_header "fake" little_endian_stamp 2 20140) in
  holds mrc2014 MapId f = false /\
  List.filter (about MapId) (warned (validate_test f)) = [MapIdIncorrect "fake"] /\
  List.filter (about MapId) (print_file (validate_test f)) = [MapIdIncorrect "fake"] /\
  valid (validate_test f) = false.
Proof.
  intros f. split; [reflexivity |].
  apply (one_warning_per_violated_condition write [] mrc2014 MapId f).
  reflexivity.
Defined.

Ltac select_statistic :=
  unfold rules;
  cbv [flat_map selected line signalled negative_field negative_cell statistic
       is_minimum is_maximum is_mean implb];
  rewrite ?andb_false_r, ?andb_true_r; cbn [app violated];
  rewrite ?app_nil_r; reflexivity.

Lemma printed_minimum (c : constants) (f : mrc_file) :
  List.filter is_minimum (print_file (validate c write f [])) =
  if data_read c f && min_max_determined (hdr f) &&
     Qneqb (dmin (hdr f)) (data_min (data_stats f))
  then [StatisticMinimum (data_min (data_stats f)) (dmin (hdr f))] else [].
Proof. rewrite filter_printed. select_statistic. Qed.

Lemma printed_maximum (c : constants) (f : mrc_file) :
  List.filter is_maximum (print_file (validate c write f [])) =
  if data_read c f && min_max_determined (hdr f) &&
     Qneqb (dmax (hdr f)) (data_max (data_stats f))
  then [StatisticMaximum (data_max (data_stats f)) (dmax (hdr f))] else [].
Proof. rewrite filter_printed. select_statistic. Qed.

Lemma printed_mean (c : constants) (f : mrc_file) :
  List.filter is_mean (print_file (validate c write f [])) =
  if data_read c f && mean_determined (hdr f) &&
     Qneqb (dmean (hdr f)) (data_mean (data_stats f))
  then [StatisticMean (data_mean (data_stats f)) (dmean (hdr f))] else [].
Proof. rewrite filter_printed. select_statistic. Qed.

Lemma Qle_bool_false (x y : Q) : (y < x)%Q -> Qle_bool x y = false.
Proof.
  intros H. destruct (Qle_bool x y) eqn:E; [| reflexivity].
  apply Qle_bool_iff in E. exfalso. exact (Qlt_not_le _ _ H E).
Qed.

Lemma Qle_bool_true (x y : Q) : (x < y)%Q -> Qle_bool x y = true.
Proof. intros H. apply Qle_bool_iff, Qlt_le_weak, H. Qed.

Lemma Qneqb_true (x y : Q) : ~ (x == y)%Q -> Qneqb x y = true.
Proof.
  intros H. unfold Qneqb. destruct (Qeq_bool x y) eqn:E; [| reflexivity].
  apply Qeq_bool_iff in E. contradiction.
Qed.

(** C4 (as stated) fails: in the file of test_incorrect_dmin the header's
    dmin, -11, is below the true minimum, -10, and the line about the
    minimum is printed. *)
Lemma dmin_below_minimum_is_reported :
  (dmin (hdr incorrect_dmin_file) < data_min (data_stats incorrect_dmin_file))%Q /\
  print_file (validate_test incorrect_dmin_file) = [StatisticMinimum (-10) (-11)] /\
  ~ minimum_exempt incorrect_dmin_file.
Proof.
  split; [reflexivity |]. split; [vm_compute; reflexivity |].
  unfold minimum_exempt. vm_compute. discriminate.
Qed.

(** C4 (amended): a dmin below the true minimum is checked like any other.
    When the data array is read and dmin < dmax, a dmin that differs from
    the true minimum gets its line, and a dmax that differs from the true
    maximum gets its own; when dmax < dmin, minimum and maximum are exempt,
    both.  Nothing is stated for dmin = dmax, which no test reaches.  The
    mean is checked on its own: a dmean above the smaller of dmin and dmax
    that differs from the true mean gets its line whether or not minimum
    and maximum are exempt. *)
Theorem minimum_checked_below_dmax_exempt_above (c : constants) (f : mrc_file) :
  data_read c f = true ->
  let h := hdr f in
  let st := data_stats f in
  let out := print_file (validate c write f []) in
  ((dmin h < dmax h)%Q -> ~ (dmin h == data_min st)%Q ->
   List.filter is_minimum out = [StatisticMinimum (data_min st) (dmin h)]) /\
  ((dmin h < dmax h)%Q -> ~ (dmax h == data_max st)%Q ->
   List.filter is_maximum out = [StatisticMaximum (data_max st) (dmax h)]) /\
  ((dmax h < dmin h)%Q ->
   List.filter is_minimum out = [] /\ List.filter is_maximum out = []) /\
  ((Qmin (dmin h) (dmax h) < dmean h)%Q -> ~ (dmean h == data_mean st)%Q ->
   List.filter is_mean out = [StatisticMean (data_mean st) (dmean h)]).
Proof.
  intros Hread h st out. subst h st out.
  rewrite printed_minimum, printed_maximum, printed_mean, Hread.
  unfold min_max_determined, mean_determined.
  split; [| split; [| split]].
  - intros Hlt Hne. rewrite (Qle_bool_true _ _ Hlt), (Qneqb_true _ _ Hne). reflexivity.
  - intros Hlt Hne. rewrite (Qle_bool_true _ _ Hlt), (Qneqb_true _ _ Hne). reflexivity.
  - intros Hlt. rewrite (Qle_bool_false _ _ Hlt). split; reflexivity.
  - intros Hlt Hne. rewrite (Qle_bool_true _ _ Hlt), (Qneqb_true _ _ Hne). reflexivity.
Qed.

Lemma minimum_checked_below_dmax_exempt_above_witness :
  data_read mrc2014 incorrect_dmin_file = true /\
  (-11 < 19)%Q /\ ~ (-11 == -10)%Q /\
  List.filter is_minimum (print_file (validate_test incorrect_dmin_file)) =
    [StatisticMinimum (-10) (-11)].
Proof.
  assert (Hread : data_read mrc2014 incorrect_dmin_file = true) by reflexivity.
  assert (Hlt : (-11 < 19)%Q) by reflexivity.
  assert (Hne : ~ (-11 == -10)%Q) by (intros H; discriminate H).
  split; [exact Hread |]. split; [exact Hlt |]. split; [exact Hne |].
  exact (proj1 (minimum_checked_below_dmax_exempt_above mrc2014 incorrect_dmin_file Hread)
           Hlt Hne).
Defined.
